(** * TwincatAds: a Tango device exposing TwinCAT PLC variables through pyads

    Shallow embedding of [src/TwincatAds/TwincatAds.py] and the properties
    of its dynamic attribute construction, its generic read and write
    handlers and its [read_float_array] command.

    The device talks to two collaborators that are not part of the
    repository: the pyads client library (connection, symbol handles) and
    the Tango framework (attribute registration, log streams).  pyads is an
    interface here ([Pyads]); the device code is written once over that
    interface and run on a small in-memory PLC ([Sim]) for concrete
    evaluations. *)

From Stdlib Require Import ZArith Ascii String List Lia.
From stdpp Require Import gmap strings list fin_maps.

Open Scope string_scope.
Open Scope Z_scope.
Open Scope list_scope.

(* ===================================================================== *)
(** ** Python values the source manipulates                               *)
(* ===================================================================== *)

(** Exceptions the source can raise or let through.  [ADSError] is what
    pyads raises, with the ADS error code; [DevFailed] is what Tango
    raises, with its reason. *)
Inductive exn : Type :=
  | ValueError
  | IndexError
  | KeyError (key : string)
  | AttributeError (name : string)
  | ADSError (code : Z)
  | DevFailed (reason : string).

Module PyStr.

(** [str.isspace] on one character, for the code points below 256 that a
    [string] of this development holds: TAB..CR, FS..US, SPACE, NEL and
    NBSP. *)
Definition isspace (c : ascii) : bool :=
  let n := Z.of_nat (nat_of_ascii c) in
  (((9 <=? n)%Z && (n <=? 13)%Z) || ((28 <=? n)%Z && (n <=? 32)%Z)
   || (n =? 133)%Z || (n =? 160)%Z)%bool.

(** [s.lstrip()] *)
Fixpoint lstrip (s : string) : string :=
  match s with
  | String c r => if isspace c then lstrip r else s
  | EmptyString => EmptyString
  end.

(** [s.rstrip()] *)
Fixpoint rstrip (s : string) : string :=
  match s with
  | EmptyString => EmptyString
  | String c r =>
      match rstrip r with
      | EmptyString => if isspace c then EmptyString else String c EmptyString
      | r' => String c r'
      end
  end.

(** [s.strip()] *)
Definition strip (s : string) : string := rstrip (lstrip s).

(** [s.split(sep)] for a separator of one character: never the empty
    list, one more field than there are separators. *)
Fixpoint split (sep : ascii) (s : string) : list string :=
  match s with
  | EmptyString => [EmptyString]
  | String c r =>
      if Ascii.eqb c sep then EmptyString :: split sep r
      else match split sep r with
           | f :: fs => String c f :: fs
           | [] => [String c EmptyString]
           end
  end.

(** Number of occurrences of [sep], [s.count(sep)]. *)
Fixpoint count (sep : ascii) (s : string) : nat :=
  match s with
  | EmptyString => O
  | String c r => ((if Ascii.eqb c sep then 1 else 0) + count sep r)%nat
  end.

End PyStr.

(** [a, b, c = xs]: unpacking into exactly three targets. *)
Definition unpack3 {A : Type} (xs : list A) : exn + (A * A * A) :=
  match xs with
  | [a; b; c] => inr (a, b, c)
  | _ => inl ValueError
  end.

(** [xs[0]] *)
Definition first_item {A : Type} (xs : list A) : exn + A :=
  match xs with
  | x :: _ => inr x
  | [] => inl IndexError
  end.

(** The ctypes data types the command builds. *)
Inductive ctype : Type :=
  | c_float
  | c_array (elt : ctype) (len : Z).

(** [pyads.PLCTYPE_REAL] *)
Definition PLCTYPE_REAL : ctype := c_float.

(** [ctypes.sizeof] *)
Fixpoint sizeof (t : ctype) : Z :=
  match t with
  | c_float => 4
  | c_array elt len => len * sizeof elt
  end.

(** [n * t] for a ctypes type [t]: the array type of [n] elements; ctypes
    refuses a negative length with [ValueError]. *)
Definition ctype_repeat (n : Z) (t : ctype) : exn + ctype :=
  if n <? 0 then inl ValueError else inr (c_array t n).

(** [np.array(values)] of a list: the same items, in the same order. *)
Definition np_array {A : Type} (values : list A) : list A := values.

(** [tango.AttrWriteType], the two members the source uses. *)
Inductive AttrWriteType : Type := READ | READ_WRITE.

(** The two bound methods the source hands to [attribute(...)]. *)
Inductive handler : Type := generic_read_method | generic_write_method.

(** The two attributes of the device the source prints to.  A Tango
    [Device] has the streams [log_debug], [log_info], [log_warn],
    [log_error] and [log_fatal]: [log_debug] is one of them,
    [log_warning] is not. *)
Inductive stream : Type := log_debug | log_warning.

(* ===================================================================== *)
(** ** The pyads interface                                                *)
(* ===================================================================== *)

(** What the source uses of [pyads.Connection] and of the symbol handle
    [get_symbol] returns.  [World] is the PLC as the open connection sees
    it; reads observe it, a write yields the next one. *)
Class Pyads : Type := {
  World : Type;
  Symbol : Type;
  Value : Type;
  PyType : Type;
  (** [plc.get_symbol(name)] *)
  get_symbol : string -> World -> exn + Symbol;
  (** [symbol.array_size] *)
  array_size : Symbol -> Z;
  (** [symbol.read()] *)
  symbol_read : Symbol -> World -> exn + Value;
  (** [symbol.write(value)] *)
  symbol_write : Symbol -> Value -> World -> exn + World;
  (** [plc.read_by_name(name, data_type)] for an array data type *)
  read_by_name : string -> ctype -> World -> exn + list Value;
  (** [type(value)] *)
  type_of : Value -> PyType
}.

(** The assumptions some properties make on the PLC behind the
    connection. *)
Class PyadsStore (P : Pyads) : Prop := {
  (** the store returns what was written *)
  read_after_write : forall (h : Symbol) (v : Value) (w w' : World),
      symbol_write h v w = inr w' -> symbol_read h w' = inr v;
  (** a named read of an array type yields one item per element *)
  read_by_name_length : forall name elt n (w : World) (vs : list Value),
      read_by_name name (c_array elt n) w = inr vs ->
      Z.of_nat (List.length vs) = n
}.

(* ===================================================================== *)
(** ** The device                                                         *)
(* ===================================================================== *)

Section Device.

Context {P : Pyads}.

(** [tango.server.attribute(name=, dtype=, access=, fget=, fset=)];
    [fget] and [fset] are optional in Tango. *)
Record attribute : Type := mk_attribute {
  attr_name : string;
  attr_dtype : PyType;
  attr_access : AttrWriteType;
  attr_fget : option handler;
  attr_fset : option handler
}.

(** The object Tango passes to a read handler ... *)
Record Attr : Type := { get_name : string }.

(** ... and to a write handler. *)
Record WAttr : Type := { w_get_name : string; get_write_value : Value }.

(** The state of one [TwincatAds] device: the [scalar_symbols] property,
    the connection [self.plc], the [symbols] dictionary, the attributes
    handed to [add_attribute] (oldest first) and what was printed to the
    log streams (oldest first). *)
Record TwincatAds : Type := mk_device {
  scalar_symbols : list string;
  plc : World;
  symbols : gmap string Symbol;
  dyn_attributes : list attribute;
  logged : list (stream * string)
}.

Definition with_plc (w : World) (d : TwincatAds) : TwincatAds :=
  mk_device (scalar_symbols d) w (symbols d) (dyn_attributes d) (logged d).

Definition with_symbols (m : gmap string Symbol) (d : TwincatAds) : TwincatAds :=
  mk_device (scalar_symbols d) (plc d) m (dyn_attributes d) (logged d).

Definition with_attributes (l : list attribute) (d : TwincatAds) : TwincatAds :=
  mk_device (scalar_symbols d) (plc d) (symbols d) l (logged d).

Definition with_logged (l : list (stream * string)) (d : TwincatAds) : TwincatAds :=
  mk_device (scalar_symbols d) (plc d) (symbols d) (dyn_attributes d) l.

(** *** Methods as state transformers that may raise

    A method maps the device to the device it leaves behind and either a
    result or the exception it raised: what was mutated before a [raise]
    stays mutated. *)
Definition M (A : Type) : Type := TwincatAds -> TwincatAds * (exn + A).

Definition ret {A} (a : A) : M A := fun d => (d, inr a).

Definition raise {A} (e : exn) : M A := fun d => (d, inl e).

Definition bind {A B} (m : M A) (k : A -> M B) : M B :=
  fun d => match m d with
           | (d', inr a) => k a d'
           | (d', inl e) => (d', inl e)
           end.

Definition lift {A} (r : exn + A) : M A := fun d => (d, r).

(** Evaluate something against the connection. *)
Definition ask_plc {A} (f : World -> exn + A) : M A := fun d => (d, f (plc d)).

(** [print(msg, file=self.<stream>)]: a message for [self.log_debug] is
    appended to the log; [self.log_warning] does not exist, so looking it
    up raises [AttributeError] and nothing is printed. *)
Definition print (msg : string) (file : stream) : M unit :=
  fun d => match file with
           | log_debug => (with_logged (logged d ++ [(file, msg)]) d, inr tt)
           | log_warning => (d, inl (AttributeError "log_warning"))
           end.

(** [self.symbols[label] = symbol] *)
Definition symbols_setitem (label : string) (symbol : Symbol) : M unit :=
  fun d => (with_symbols (<[label := symbol]> (symbols d)) d, inr tt).

(** [self.symbols[name]] *)
Definition symbols_getitem (name : string) : M Symbol :=
  fun d => match symbols d !! name with
           | Some h => (d, inr h)
           | None => (d, inl (KeyError name))
           end.

(** [self.add_attribute(attr)] *)
Definition add_attribute (attr : attribute) : M unit :=
  fun d => (with_attributes (dyn_attributes d ++ [attr]) d, inr tt).

(** [symbol.write(value)] *)
Definition do_symbol_write (h : Symbol) (v : Value) : M unit :=
  fun d => match symbol_write h v (plc d) with
           | inr w' => (with_plc w' d, inr tt)
           | inl e => (d, inl e)
           end.

End Device.

Declare Scope device_scope.
Delimit Scope device_scope with device.
Notation "'let!' x ':=' c 'in' k" := (bind c (fun x => k))
  (at level 10, x pattern, c at level 100, k at level 200) : device_scope.
Notation "'run!' c 'in' k" := (bind c (fun _ => k))
  (at level 10, c at level 100, k at level 200) : device_scope.
Open Scope device_scope.

Section Methods.

Context {P : Pyads}.

(** The body of the [for line in self.scalar_symbols] loop of
    [initialize_dynamic_attributes]; returning is [continue] or the end
    of the body. *)
Definition initialize_line (line : string) : M unit :=
  let! (name, label, access) :=
    lift (unpack3 (map PyStr.strip (PyStr.split "," line))) in
  run! print ("init: " +:+ name +:+ ", " +:+ label +:+ ", " +:+ access) log_debug in
  let! symbol := ask_plc (get_symbol name) in
  run! symbols_setitem label symbol in
  let size := array_size symbol in
  if size >? 1 then
    print (name +:+ " is not a scalar. Ignoring.") log_warning
  else
    let! value := ask_plc (symbol_read symbol) in
    let attr :=
      mk_attribute label (type_of value)
        (if String.eqb access "rw" then READ_WRITE else READ)
        (Some generic_read_method) (Some generic_write_method) in
    add_attribute attr.

(** The loop itself: an exception leaves it at once. *)
Fixpoint initialize_lines (lines : list string) : M unit :=
  match lines with
  | [] => ret tt
  | line :: rest => run! initialize_line line in initialize_lines rest
  end.

Definition initialize_dynamic_attributes : M unit :=
  fun d => initialize_lines (scalar_symbols d) d.

Definition generic_read (attr : Attr) : M Value :=
  let name := get_name attr in
  let! symbol := symbols_getitem name in
  ask_plc (symbol_read symbol).

Definition generic_write (attr : WAttr) : M unit :=
  let name := w_get_name attr in
  let value := get_write_value attr in
  let! symbol := symbols_getitem name in
  do_symbol_write symbol value.

(** The command; [argin] is a [DevVarLongStringArray], a pair of an
    integer array and a string array. *)
Definition read_float_array (argin : list Z * list string) : M (list Value) :=
  let! npts := lift (first_item (fst argin)) in
  let! name := lift (first_item (snd argin)) in
  let! data_type := lift (ctype_repeat npts PLCTYPE_REAL) in
  let! values := ask_plc (read_by_name name data_type) in
  ret (np_array values).

(** A client's write of [value] to the registered attribute [a], as
    Tango handles it: an attribute registered [READ] is refused by the
    framework itself ([DevFailed], reason [API_AttrNotWritable]) and no
    handler is run; for a [READ_WRITE] attribute the method registered as
    [fset] is called with the attribute's name and the value.  [None]
    where there is no write method of the source to run. *)
Definition tango_write (a : attribute) (value : Value) : option (M unit) :=
  match attr_access a with
  | READ => Some (raise (DevFailed "API_AttrNotWritable"))
  | READ_WRITE =>
      match attr_fset a with
      | Some generic_write_method =>
          Some (generic_write {| w_get_name := attr_name a;
                                 get_write_value := value |})
      | _ => None
      end
  end.

(** The fields a manifest line is unpacked from, and the debug message
    the loop body prints. *)
Definition fields (line : string) : list string :=
  map PyStr.strip (PyStr.split "," line).

Definition init_message (name label access : string) : string :=
  "init: " +:+ name +:+ ", " +:+ label +:+ ", " +:+ access.

(** What [attribute(...)] builds for a label, a sampled value and an
    access token. *)
Definition attribute_for (label : string) (value : Value) (access : string)
  : attribute :=
  mk_attribute label (type_of value)
    (if String.eqb access "rw" then READ_WRITE else READ)
    (Some generic_read_method) (Some generic_write_method).

(** An attribute as the loop registers it: both generic handlers bound
    and its name a key of the device's [symbols]. *)
Definition registered_in (d : TwincatAds) (a : attribute) : Prop :=
  attr_fget a = Some generic_read_method /\
  attr_fset a = Some generic_write_method /\
  is_Some (symbols d !! attr_name a).

End Methods.

(* ===================================================================== *)
(** ** An in-memory PLC                                                   *)
(* ===================================================================== *)

Module Sim.

(** Scalar PLC values as Python sees them; a REAL is kept as its
    IEEE-754 single precision bit pattern. *)
Inductive plc_value : Type :=
  | VBool (b : bool)
  | VInt (n : Z)
  | VReal (bits : Z)
  | VStr (s : string).

Inductive py_type : Type := py_bool | py_int | py_float | py_str.

Definition value_type (v : plc_value) : py_type :=
  match v with
  | VBool _ => py_bool
  | VInt _ => py_int
  | VReal _ => py_float
  | VStr _ => py_str
  end.

(** A symbol handle: the name it was resolved from and its [array_size]
    attribute. *)
Record handle : Type := { h_name : string; h_array_size : Z }.

(** ADS error codes: symbol not found, invalid size. *)
Definition ADSERR_DEVICE_SYMBOLNOTFOUND : Z := 1808.
Definition ADSERR_DEVICE_INVALIDSIZE : Z := 1797.

(** A PLC: every declared symbol with its elements, in memory order. *)
Abbreviation memory := (gmap string (list plc_value)).

(** [get_symbol(name)] with no further argument: pyads gives the handle
    its default [array_size] of 1, whatever is declared for the symbol. *)
Definition sim_get_symbol (name : string) (w : memory) : exn + handle :=
  match w !! name with
  | Some _ => inr {| h_name := name; h_array_size := 1 |}
  | None => inl (ADSError ADSERR_DEVICE_SYMBOLNOTFOUND)
  end.

(** The simulated PLC serves scalar reads only: the read of a symbol
    that does not hold exactly one element is refused. *)
Definition sim_read (h : handle) (w : memory) : exn + plc_value :=
  match w !! h_name h with
  | Some [v] => inr v
  | Some _ => inl (ADSError ADSERR_DEVICE_INVALIDSIZE)
  | None => inl (ADSError ADSERR_DEVICE_SYMBOLNOTFOUND)
  end.

Definition sim_write (h : handle) (v : plc_value) (w : memory) : exn + memory :=
  match w !! h_name h with
  | Some _ => inr (<[h_name h := [v]]> w)
  | None => inl (ADSError ADSERR_DEVICE_SYMBOLNOTFOUND)
  end.

Definition sim_read_by_name (name : string) (t : ctype) (w : memory)
  : exn + list plc_value :=
  match w !! name, t with
  | None, _ => inl (ADSError ADSERR_DEVICE_SYMBOLNOTFOUND)
  | Some cells, c_array _ n =>
      if (0 <=? n) && (n <=? Z.of_nat (List.length cells))
      then inr (take (Z.to_nat n) cells)
      else inl (ADSError ADSERR_DEVICE_INVALIDSIZE)
  | Some cells, c_float => inl (ADSError ADSERR_DEVICE_INVALIDSIZE)
  end.

#[export] Instance sim_pyads : Pyads := {|
  World := memory;
  Symbol := handle;
  Value := plc_value;
  PyType := py_type;
  get_symbol := sim_get_symbol;
  array_size := h_array_size;
  symbol_read := sim_read;
  symbol_write := sim_write;
  read_by_name := sim_read_by_name;
  type_of := value_type
|}.

(** A PLC with two scalars, a BOOL and a REAL 0.0, and one array of the
    four REALs 0.0, 1.0, 2.0 and 3.0. *)
Definition plc0 : memory :=
  <["MAIN.x" := [VBool true]]>
    (<["MAIN.y" := [VReal 0]]>
       (<["MAIN.array1" := [VReal 0; VReal 1065353216; VReal 1073741824; VReal 1077936128]]> ∅)).

(** The REAL 3.5. *)
Definition real_3_5 : plc_value := VReal 1080033280.

(** A freshly connected device with the given manifest. *)
Definition device0 (manifest : list string) : TwincatAds :=
  mk_device manifest plc0 ∅ [] [].

(** Manifests: two scalars; an array between two scalars; an unknown
    symbol and a malformed line after a good line. *)
Definition two_scalars : list string :=
  ["MAIN.x, output, ro"; "MAIN.y, setpoint, rw"].

Definition with_array : list string :=
  ["MAIN.x, output, ro"; "MAIN.array1, arr, ro"; "MAIN.y, setpoint, rw"].

Definition with_unknown : list string :=
  ["MAIN.x, output, ro"; "MAIN.nope, gone, rw"; "MAIN.y, setpoint, rw"].

Definition with_malformed : list string :=
  ["MAIN.x, output, ro"; "MAIN.y, setpoint"; "MAIN.y, setpoint, rw"].

(** The attribute registered for the line [MAIN.x, output, ro]. *)
Definition output_attribute : attribute :=
  mk_attribute "output" py_bool READ
    (Some generic_read_method) (Some generic_write_method).

End Sim.

(* ===================================================================== *)
(** ** A connection whose handles report more than one element           *)
(* ===================================================================== *)

(** The size test of the loop body looks at the handle's [array_size].
    pyads sets it to 1 in [get_symbol(name)]; the test can only fire on a
    connection whose handles report more.  [Reporting] is the in-memory
    PLC behind such a connection: its handles report the number of
    elements declared for the symbol. *)
Module Reporting.

Import Sim.

Definition reporting_get_symbol (name : string) (w : memory) : exn + handle :=
  match w !! name with
  | Some cells =>
      inr {| h_name := name; h_array_size := Z.of_nat (List.length cells) |}
  | None => inl (ADSError ADSERR_DEVICE_SYMBOLNOTFOUND)
  end.

Definition reporting_pyads : Pyads := {|
  World := memory;
  Symbol := handle;
  Value := plc_value;
  PyType := py_type;
  get_symbol := reporting_get_symbol;
  array_size := h_array_size;
  symbol_read := sim_read;
  symbol_write := sim_write;
  read_by_name := sim_read_by_name;
  type_of := value_type
|}.

(** A freshly connected device on such a connection. *)
Definition reporting_device (manifest : list string)
  : @TwincatAds reporting_pyads :=
  @mk_device reporting_pyads manifest plc0 ∅ [] [].

End Reporting.

(* ===================================================================== *)
(** ** Observations on manifests and logs                                 *)
(* ===================================================================== *)

Section Observers.

Context {P : Pyads}.

(** A manifest line in the format the [scalar_symbols] property
    documents: [<ads_name>, <label>, <access>]. *)
Definition manifest_line (name label access : string) : string :=
  name +:+ ", " +:+ label +:+ ", " +:+ access.

(** The label a line is unpacked to, when it unpacks. *)
Definition line_label (line : string) : option string :=
  match fields line with
  | [_; label; _] => Some label
  | _ => None
  end.

(** What the loop body needs of a line on the PLC [w] to get to its
    end: three fields, a name that resolves to a symbol whose
    [array_size] is not above 1, and a sampling read that succeeds. *)
Definition line_ok (w : World) (line : string) : bool :=
  match unpack3 (fields line) with
  | inr (name, _, _) =>
      match get_symbol name w with
      | inr symbol =>
          negb (array_size symbol >? 1)
          && (match symbol_read symbol w with inr _ => true | inl _ => false end)
      | inl _ => false
      end
  | inl _ => false
  end.

(** The debug message a line prints, when it unpacks. *)
Definition line_message (line : string) : option (stream * string) :=
  match fields line with
  | [name; label; access] => Some (log_debug, init_message name label access)
  | _ => None
  end.

End Observers.

Module SimManifests.

Import Sim.

(** Two lines with the same label, the second one an array. *)
Definition reused_label : list string :=
  ["MAIN.y, setpoint, rw"; "MAIN.array1, setpoint, ro"].

(** A PLC with one more symbol, declared without elements, whose read
    the PLC refuses; and a device whose second manifest line names it. *)
Definition plc_hollow : memory := <["MAIN.hollow" := []]> plc0.

Definition hollow_manifest : list string :=
  ["MAIN.x, output, ro"; "MAIN.hollow, level, rw"; "MAIN.y, setpoint, rw"].

Definition hollow_device : TwincatAds :=
  mk_device hollow_manifest plc_hollow ∅ [] [].

End SimManifests.

(* ===================================================================== *)
(** ** String facts                                                       *)
(* ===================================================================== *)

Module PyStrFacts.

Import PyStr.

Lemma split_nonempty sep s : split sep s <> [].
Proof.
  destruct s as [|c r]; simpl; [discriminate|].
  destruct (Ascii.eqb c sep); [discriminate|].
  destruct (split sep r); discriminate.
Qed.

(** One more field than separators. *)
Lemma split_length sep s : List.length (split sep s) = S (count sep s).
Proof.
  induction s as [|c r IH]; simpl; [reflexivity|].
  destruct (Ascii.eqb c sep); simpl.
  - now rewrite IH.
  - destruct (split sep r) eqn:E; simpl in *; [discriminate IH | exact IH].
Qed.

End PyStrFacts.

(* ===================================================================== *)
(** ** The loop body, case by case                                        *)
(* ===================================================================== *)

(** Unfold the monad and the record updates, then compute. *)
Ltac run_device :=
  unfold bind, ret, raise, lift, ask_plc, print, symbols_setitem, symbols_getitem,
    add_attribute, do_symbol_write, with_plc, with_symbols, with_attributes,
    with_logged in *;
  cbn [scalar_symbols plc symbols dyn_attributes logged fst snd] in *.

Section Steps.

Context {P : Pyads}.

Lemma unpack3_length {A} (xs : list A) :
  List.length xs <> 3%nat -> unpack3 xs = inl ValueError.
Proof.
  destruct xs as [|a [|b [|c [|x xs]]]]; simpl; intros H;
    try reflexivity; now contradict H.
Qed.

(** A line with the wrong number of fields raises in the unpacking,
    before anything is touched. *)
Lemma initialize_line_malformed line d :
  List.length (PyStr.split "," line) <> 3%nat ->
  initialize_line line d = (d, inl ValueError).
Proof.
  intros H. unfold initialize_line, bind, lift.
  rewrite unpack3_length; [reflexivity|].
  now rewrite length_map.
Qed.

(** A name the connection cannot resolve: the debug line is printed and
    the error of [get_symbol] leaves the body. *)
Lemma initialize_line_unresolved line d name label access e :
  fields line = [name; label; access] ->
  get_symbol name (plc d) = inl e ->
  initialize_line line d =
    (with_logged (logged d ++ [(log_debug, init_message name label access)]) d,
     inl e).
Proof.
  intros Hf Hs. unfold initialize_line, fields in *. run_device.
  rewrite Hf. cbn. now rewrite Hs.
Qed.

(** A symbol whose handle reports more than one element: recorded in
    [symbols]; then the stream for the warning is looked up and the body
    raises. *)
Lemma initialize_line_array line d name label access sym :
  fields line = [name; label; access] ->
  get_symbol name (plc d) = inr sym ->
  array_size sym > 1 ->
  initialize_line line d =
    (mk_device (scalar_symbols d) (plc d) (<[label := sym]> (symbols d))
       (dyn_attributes d)
       (logged d ++ [(log_debug, init_message name label access)]),
     inl (AttributeError "log_warning")).
Proof.
  intros Hf Hs Hsz. unfold initialize_line, fields in *. run_device.
  rewrite Hf. cbn. rewrite Hs. cbn.
  destruct (Z.gtb_spec (array_size sym) 1); [reflexivity | lia].
Qed.

(** A scalar symbol that reads: recorded and registered. *)
Lemma initialize_line_scalar line d name label access sym v :
  fields line = [name; label; access] ->
  get_symbol name (plc d) = inr sym ->
  array_size sym <= 1 ->
  symbol_read sym (plc d) = inr v ->
  initialize_line line d =
    (mk_device (scalar_symbols d) (plc d) (<[label := sym]> (symbols d))
       (dyn_attributes d ++ [attribute_for label v access])
       (logged d ++ [(log_debug, init_message name label access)]),
     inr tt).
Proof.
  intros Hf Hs Hsz Hr. unfold initialize_line, fields in *. run_device.
  rewrite Hf. cbn. rewrite Hs. cbn.
  destruct (Z.gtb_spec (array_size sym) 1); [lia|].
  cbn. now rewrite Hr.
Qed.

(** A scalar symbol whose sampling read fails: recorded, not registered. *)
Lemma initialize_line_read_fails line d name label access sym e :
  fields line = [name; label; access] ->
  get_symbol name (plc d) = inr sym ->
  array_size sym <= 1 ->
  symbol_read sym (plc d) = inl e ->
  initialize_line line d =
    (mk_device (scalar_symbols d) (plc d) (<[label := sym]> (symbols d))
       (dyn_attributes d)
       (logged d ++ [(log_debug, init_message name label access)]),
     inl e).
Proof.
  intros Hf Hs Hsz Hr. unfold initialize_line, fields in *. run_device.
  rewrite Hf. cbn. rewrite Hs. cbn.
  destruct (Z.gtb_spec (array_size sym) 1); [lia|].
  cbn. now rewrite Hr.
Qed.

End Steps.

(* ===================================================================== *)
(** ** The loop                                                           *)
(* ===================================================================== *)

Section Loop.

Context {P : Pyads}.

Lemma initialize_lines_continue line rest d d' :
  initialize_line line d = (d', inr tt) ->
  initialize_lines (line :: rest) d = initialize_lines rest d'.
Proof. intros H. cbn. unfold bind. now rewrite H. Qed.

Lemma initialize_lines_abort line rest d d' e :
  initialize_line line d = (d', inl e) ->
  initialize_lines (line :: rest) d = (d', inl e).
Proof. intros H. cbn. unfold bind. now rewrite H. Qed.

(** Running a manifest in two pieces. *)
Lemma initialize_lines_app pre post d :
  initialize_lines (pre ++ post) d =
    match initialize_lines pre d with
    | (d1, inr _) => initialize_lines post d1
    | (d1, inl e) => (d1, inl e)
    end.
Proof.
  revert d. induction pre as [|line pre IH]; intros d; [reflexivity|].
  cbn. unfold bind. destruct (initialize_line line d) as [d1 [e|[]]].
  - reflexivity.
  - apply IH.
Qed.

(** What one pass through the body may change, however it ends: the
    manifest and the PLC are left alone, [symbols] only gains keys, and
    at most one attribute is appended, registered as [registered_in]
    says. *)
Lemma initialize_line_effect line d :
  let d' := fst (initialize_line line d) in
  scalar_symbols d' = scalar_symbols d /\
  plc d' = plc d /\
  (forall k, is_Some (symbols d !! k) -> is_Some (symbols d' !! k)) /\
  exists created,
    dyn_attributes d' = dyn_attributes d ++ created /\
    Forall (registered_in d') created.
Proof.
  unfold initialize_line. run_device.
  destruct (unpack3 _) as [e|[[name label] access]]; cbn.
  { repeat split; auto. exists []. now rewrite app_nil_r. }
  destruct (get_symbol name (plc d)) as [e|sym]; cbn.
  { repeat split; auto. exists []. now rewrite app_nil_r. }
  assert (Hkeys : forall k, is_Some (symbols d !! k) ->
                            is_Some (<[label := sym]> (symbols d) !! k)).
  { intros k Hk. destruct (decide (label = k)) as [->|Hne].
    - rewrite lookup_insert_eq. eauto.
    - now rewrite lookup_insert_ne. }
  destruct (array_size sym >? 1); cbn.
  { repeat split; auto. exists []. now rewrite app_nil_r. }
  destruct (symbol_read sym (plc d)) as [e|v]; cbn.
  { repeat split; auto. exists []. now rewrite app_nil_r. }
  repeat split; auto.
  eexists [_]. split; [reflexivity|].
  constructor; [|constructor].
  unfold registered_in; cbn. rewrite lookup_insert_eq. eauto.
Qed.

Lemma registered_in_mono d d' a :
  (forall k, is_Some (symbols d !! k) -> is_Some (symbols d' !! k)) ->
  registered_in d a -> registered_in d' a.
Proof. intros Hk (Hg & Hs & Hin). repeat split; auto. Qed.

(** The same for the whole loop. *)
Lemma initialize_lines_effect lines d :
  let d' := fst (initialize_lines lines d) in
  scalar_symbols d' = scalar_symbols d /\
  plc d' = plc d /\
  (forall k, is_Some (symbols d !! k) -> is_Some (symbols d' !! k)) /\
  exists created,
    dyn_attributes d' = dyn_attributes d ++ created /\
    Forall (registered_in d') created.
Proof.
  revert d. induction lines as [|line rest IH]; intros d; cbn.
  { repeat split; auto. exists []. now rewrite app_nil_r. }
  pose proof (initialize_line_effect line d) as (Hm & Hp & Hk & c1 & Hc1 & Hr1).
  unfold bind. destruct (initialize_line line d) as [d1 [e|[]]]; cbn in *.
  { repeat split; auto. exists c1. auto. }
  specialize (IH d1) as (Hm2 & Hp2 & Hk2 & c2 & Hc2 & Hr2).
  repeat split; try congruence; auto.
  exists (c1 ++ c2). split.
  - rewrite Hc2, Hc1. now rewrite <- app_assoc.
  - apply Forall_app. split; [|exact Hr2].
    eapply Forall_impl; [exact Hr1|].
    intros a. now apply registered_in_mono.
Qed.

End Loop.

(* ===================================================================== *)
(** ** The handlers and the command                                       *)
(* ===================================================================== *)

Section Handlers.

Context {P : Pyads}.

(** [generic_read] is a dictionary lookup followed by one read against
    the connection as it is now; the device is left as it was. *)
Lemma generic_read_unfold attr d :
  generic_read attr d =
    match symbols d !! get_name attr with
    | Some symbol => (d, symbol_read symbol (plc d))
    | None => (d, inl (KeyError (get_name attr)))
    end.
Proof.
  unfold generic_read. run_device.
  now destruct (symbols d !! get_name attr).
Qed.

(** [generic_write] is the same lookup followed by one write. *)
Lemma generic_write_unfold attr d :
  generic_write attr d =
    match symbols d !! w_get_name attr with
    | Some symbol =>
        match symbol_write symbol (get_write_value attr) (plc d) with
        | inr w' => (with_plc w' d, inr tt)
        | inl e => (d, inl e)
        end
    | None => (d, inl (KeyError (w_get_name attr)))
    end.
Proof.
  unfold generic_write. run_device.
  now destruct (symbols d !! w_get_name attr).
Qed.

(** The command on a well-formed input whose count ctypes accepts. *)
Lemma read_float_array_unfold d npts ns name names :
  0 <= npts ->
  read_float_array (npts :: ns, name :: names) d =
    (d, read_by_name name (c_array PLCTYPE_REAL npts) (plc d)).
Proof.
  intros Hn. unfold read_float_array, ctype_repeat, np_array. run_device.
  cbn. destruct (Z.ltb_spec npts 0); [lia|].
  now destruct (read_by_name name (c_array PLCTYPE_REAL npts) (plc d)).
Qed.

End Handlers.

(** The in-memory PLC meets the store assumptions. *)
Lemma sim_store : PyadsStore Sim.sim_pyads.
Proof.
  split.
  - intros h v w w'. cbn. unfold Sim.sim_write, Sim.sim_read.
    destruct ((w : Sim.memory) !! Sim.h_name h); [|discriminate].
    intros [= <-]. now rewrite lookup_insert_eq.
  - intros name elt n w vs. cbn. unfold Sim.sim_read_by_name.
    destruct ((w : Sim.memory) !! name) as [cells|]; [|discriminate].
    destruct (Z.leb_spec 0 n); cbn; [|discriminate].
    destruct (Z.leb_spec n (Z.of_nat (List.length cells))); cbn; [|discriminate].
    intros [= <-]. rewrite length_take. lia.
Qed.

#[export] Existing Instance sim_store.

(* ===================================================================== *)
(** ** Properties of the dynamic attribute construction                   *)
(* ===================================================================== *)

Section Construction.

Context {P : Pyads}.

(** C1 (amended).  For a manifest line whose resolved symbol has
    [array_size > 1] no attribute is created, but the label-to-handle
    entry is in [symbols] afterwards: the source stores it as soon as the
    name resolves, before it looks at the size, so it is stored for every
    line whose name resolves, whatever the size and however the rest of
    the body ends. *)
Theorem array_symbol_recorded_without_attribute line d name label access sym :
  fields line = [name; label; access] ->
  get_symbol name (plc d) = inr sym ->
  let d' := fst (initialize_line line d) in
  symbols d' = <[label := sym]> (symbols d) /\
  symbols d' !! label = Some sym /\
  (array_size sym > 1 -> dyn_attributes d' = dyn_attributes d).
Proof.
  intros Hf Hs d'. subst d'.
  assert (Hsym : symbols (fst (initialize_line line d))
                 = <[label := sym]> (symbols d)).
  { destruct (Z_gt_le_dec (array_size sym) 1) as [Hsz|Hsz].
    { now rewrite (initialize_line_array _ _ _ _ _ _ Hf Hs Hsz). }
    destruct (symbol_read sym (plc d)) as [e|v] eqn:Hr.
    - now rewrite (initialize_line_read_fails _ _ _ _ _ _ _ Hf Hs Hsz Hr).
    - now rewrite (initialize_line_scalar _ _ _ _ _ _ _ Hf Hs Hsz Hr). }
  repeat split.
  - exact Hsym.
  - rewrite Hsym. apply lookup_insert_eq.
  - intros Hsz. now rewrite (initialize_line_array _ _ _ _ _ _ Hf Hs Hsz).
Qed.

(** C3 (amended).  When a manifest line names a symbol that fails to
    resolve and the lines before it went through, the construction
    raises the resolution error at that line and runs no later line.
    Nothing is rolled back: the attributes and table entries of the
    earlier lines stay as they were when the bad line was reached.  Only
    a bad first line leaves the attributes the device started with. *)
Theorem unresolved_symbol_aborts_without_rollback
    d pre line post d1 name label access e :
  scalar_symbols d = pre ++ line :: post ->
  initialize_lines pre d = (d1, inr tt) ->
  fields line = [name; label; access] ->
  get_symbol name (plc d1) = inl e ->
  exists d',
    initialize_dynamic_attributes d = (d', inl e) /\
    dyn_attributes d' = dyn_attributes d1 /\
    symbols d' = symbols d1 /\
    (pre = [] -> dyn_attributes d' = dyn_attributes d).
Proof.
  intros Hm Hpre Hf Hs.
  unfold initialize_dynamic_attributes. rewrite Hm, initialize_lines_app, Hpre.
  erewrite initialize_lines_abort
    by (eapply initialize_line_unresolved; eassumption).
  eexists. split; [reflexivity|]. cbn. repeat split.
  intros ->. cbn in Hpre. unfold ret in Hpre. now inversion Hpre.
Qed.

(** C5.  A manifest line that does not split into exactly three
    comma-separated fields makes the construction raise: it never
    returns normally, and when the lines before it went through it
    raises the unpacking error at that line, with that line and every
    later one left unprocessed. *)
Theorem malformed_line_aborts d pre line post :
  scalar_symbols d = pre ++ line :: post ->
  List.length (PyStr.split "," line) <> 3%nat ->
  (exists d' e, initialize_dynamic_attributes d = (d', inl e)) /\
  (forall d1, initialize_lines pre d = (d1, inr tt) ->
              initialize_dynamic_attributes d = (d1, inl ValueError)).
Proof.
  intros Hm Hlen.
  unfold initialize_dynamic_attributes. rewrite Hm, initialize_lines_app.
  split.
  - destruct (initialize_lines pre d) as [d1 [e|[]]]; [eauto|].
    erewrite initialize_lines_abort
      by (apply initialize_line_malformed; exact Hlen).
    eauto.
  - intros d1 ->.
    now apply initialize_lines_abort, initialize_line_malformed.
Qed.

(** C6.  For a manifest line that registers an attribute, the access
    field after trimming decides the write type: exactly the token
    [rw] gives [READ_WRITE], every other token gives [READ]. *)
Theorem access_token_decides_write_type line d name label access sym v :
  fields line = [name; label; access] ->
  get_symbol name (plc d) = inr sym ->
  array_size sym <= 1 ->
  symbol_read sym (plc d) = inr v ->
  exists d' a,
    initialize_line line d = (d', inr tt) /\
    dyn_attributes d' = dyn_attributes d ++ [a] /\
    attr_name a = label /\
    (access = "rw" -> attr_access a = READ_WRITE) /\
    (access <> "rw" -> attr_access a = READ).
Proof.
  intros Hf Hs Hsz Hr.
  pose proof (initialize_line_scalar line d name label access sym v Hf Hs Hsz Hr) as E.
  do 2 eexists. split; [exact E|]. cbn. repeat split.
  - intros ->. reflexivity.
  - intros Hne. unfold attribute_for. cbn.
    destruct (String.eqb_spec access "rw"); [contradiction|reflexivity].
Qed.

(** C9.  Every attribute the construction registers carries the generic
    write handler as its setter and the generic read handler as its
    getter, whatever its access mode.  A line that registers an attribute
    builds it with both handlers; with any access token other than [rw]
    the attribute is [READ] and still has the setter, and a client's write
    to it is refused by its access mode, not for want of a write method:
    had the same attribute been registered [READ_WRITE], the write would
    run the generic write handler. *)
Theorem every_attribute_gets_generic_write line d name label access sym v :
  fields line = [name; label; access] ->
  get_symbol name (plc d) = inr sym ->
  array_size sym <= 1 ->
  symbol_read sym (plc d) = inr v ->
  (exists a,
      dyn_attributes (fst (initialize_line line d)) = dyn_attributes d ++ [a] /\
      attr_name a = label /\
      attr_fset a = Some generic_write_method /\
      attr_fget a = Some generic_read_method /\
      (access <> "rw" ->
       attr_access a = READ /\
       forall value,
         tango_write a value = Some (raise (DevFailed "API_AttrNotWritable")) /\
         tango_write
           (mk_attribute (attr_name a) (attr_dtype a) READ_WRITE
              (attr_fget a) (attr_fset a)) value
           = Some (generic_write {| w_get_name := label;
                                    get_write_value := value |})) /\
      (access = "rw" ->
       attr_access a = READ_WRITE /\
       forall value,
         tango_write a value
           = Some (generic_write {| w_get_name := label;
                                    get_write_value := value |}))) /\
  (forall dev, exists created,
      dyn_attributes (fst (initialize_dynamic_attributes dev))
        = dyn_attributes dev ++ created /\
      forall a, a ∈ created ->
        attr_fset a = Some generic_write_method /\
        attr_fget a = Some generic_read_method).
Proof.
  intros Hf Hs Hsz Hr. split.
  - rewrite (initialize_line_scalar _ _ _ _ _ _ _ Hf Hs Hsz Hr). cbn.
    exists (attribute_for label v access).
    do 4 (split; [reflexivity|]). split.
    + intros Hne. unfold tango_write, attribute_for. cbn.
      destruct (String.eqb_spec access "rw"); [contradiction|].
      split; [reflexivity|]. intros value. split; reflexivity.
    + intros ->. split; [reflexivity|]. intros value. reflexivity.
  - intros dev.
    destruct (initialize_lines_effect (scalar_symbols dev) dev)
      as (_ & _ & _ & created & Hc & Hall).
    exists created. split; [exact Hc|].
    intros a Ha. rewrite Forall_forall in Hall.
    destruct (Hall a Ha) as (Hg & Hset & _). auto.
Qed.

End Construction.

(* ===================================================================== *)
(** ** Properties of the generic handlers                                 *)
(* ===================================================================== *)

Section GenericHandlers.

Context {P : Pyads}.

(** C8.  Every call of the generic read looks the attribute's name up
    in [symbols] and returns what one read of that symbol yields on the
    PLC as it is at the time of the call, leaving the device untouched
    (nothing is kept for a later call).  For every attribute the
    construction registered the lookup succeeds, so whatever the PLC
    has become since, the value returned is the one read from it then. *)
Theorem generic_read_is_live d0 a :
  Forall (registered_in d0) (dyn_attributes d0) ->
  let d := fst (initialize_dynamic_attributes d0) in
  a ∈ dyn_attributes d ->
  (forall attr dev,
      generic_read attr dev =
        match symbols dev !! get_name attr with
        | Some symbol => (dev, symbol_read symbol (plc dev))
        | None => (dev, inl (KeyError (get_name attr)))
        end) /\
  exists symbol,
    symbols d !! attr_name a = Some symbol /\
    forall w,
      generic_read {| get_name := attr_name a |} (with_plc w d)
        = (with_plc w d, symbol_read symbol w).
Proof.
  intros H0 d Ha. split; [apply generic_read_unfold|].
  destruct (initialize_lines_effect (scalar_symbols d0) d0)
    as (_ & _ & Hk & created & Hc & Hall).
  fold (initialize_dynamic_attributes d0) in Hk, Hc, Hall. fold d in Hk, Hc, Hall.
  assert (Hreg : registered_in d a).
  { rewrite Hc in Ha. apply elem_of_app in Ha as [Ha|Ha].
    - rewrite Forall_forall in H0.
      eapply registered_in_mono; [exact Hk | now apply H0].
    - rewrite Forall_forall in Hall. now apply Hall. }
  destruct Hreg as (_ & _ & [symbol Hsym]).
  exists symbol. split; [exact Hsym|].
  intros w. rewrite generic_read_unfold. cbn. now rewrite Hsym.
Qed.

(** C4.  On a PLC that returns what was written, a generic write that
    succeeds followed by a generic read of the same attribute, with
    nothing happening to the PLC in between, returns the written value.
    This holds for every name the write succeeds on, hence for every
    attribute registered with access [rw]. *)
Theorem write_then_read_round_trip `{!PyadsStore P} d name v d' :
  generic_write {| w_get_name := name; get_write_value := v |} d = (d', inr tt) ->
  generic_read {| get_name := name |} d' = (d', inr v).
Proof.
  rewrite generic_write_unfold, generic_read_unfold. cbn.
  destruct (symbols d !! name) as [symbol|] eqn:Hsym; [|discriminate].
  destruct (symbol_write symbol v (plc d)) as [e|w'] eqn:Hw; [discriminate|].
  intros [= <-]. cbn. rewrite Hsym.
  now rewrite (read_after_write _ _ _ _ Hw).
Qed.

End GenericHandlers.

(* ===================================================================== *)
(** ** Properties of [read_float_array]                                   *)
(* ===================================================================== *)

Section Command.

Context {P : Pyads}.

(** C2.  What the source does with a negative count: [npts *
    pyads.PLCTYPE_REAL] is refused by ctypes, so the command raises
    [ValueError] before any read is issued, whatever the symbol's
    declared length. *)
Theorem read_float_array_negative_count d count ns name names :
  count < 0 ->
  read_float_array (count :: ns, name :: names) d = (d, inl ValueError).
Proof.
  intros Hn. unfold read_float_array, ctype_repeat. run_device. cbn.
  destruct (Z.ltb_spec count 0); [reflexivity | lia].
Qed.

(** C7.  With a count that is not negative the command issues one raw
    named read of the type "array of [count] REALs" (4 bytes each) and
    returns its items unchanged and in the order the read gave them; a
    successful result has exactly [count] items; the [symbols] table
    plays no part. *)
Theorem read_float_array_reads_count `{!PyadsStore P} d count ns name names :
  0 <= count ->
  let argin := (count :: ns, name :: names) in
  let data_type := c_array PLCTYPE_REAL count in
  read_float_array argin d = (d, read_by_name name data_type (plc d)) /\
  sizeof data_type = count * 4 /\
  (forall vs, snd (read_float_array argin d) = inr vs ->
              Z.of_nat (List.length vs) = count) /\
  (forall table,
      snd (read_float_array argin (with_symbols table d))
        = snd (read_float_array argin d)).
Proof.
  intros Hn argin data_type. subst argin data_type.
  repeat split.
  - now apply read_float_array_unfold.
  - intros vs. rewrite read_float_array_unfold by exact Hn. cbn.
    apply read_by_name_length.
  - intros table. now rewrite !read_float_array_unfold by exact Hn.
Qed.

(** C10.  Only the first integer and the first string of the input
    matter: two inputs that agree on the first item of each array (or
    both lack it) give the same outcome, so further elements of either
    array change nothing. *)
Theorem read_float_array_ignores_extra_items d argin argin' :
  first_item (fst argin) = first_item (fst argin') ->
  first_item (snd argin) = first_item (snd argin') ->
  read_float_array argin d = read_float_array argin' d.
Proof.
  intros Hn Hs. unfold read_float_array. run_device.
  rewrite Hn. destruct (first_item (fst argin')) as [e|npts]; [reflexivity|].
  now rewrite Hs.
Qed.

End Command.

(* ===================================================================== *)
(** ** The properties on the in-memory PLC                                *)
(* ===================================================================== *)

Module SimRuns.

Import Sim.

(** The scenario of two scalar lines: both registered, in order. *)
Example two_scalars_run :
  let r := initialize_dynamic_attributes (device0 two_scalars) in
  snd r = inr tt /\
  map attr_name (dyn_attributes (fst r)) = ["output"; "setpoint"] /\
  map attr_access (dyn_attributes (fst r)) = [READ; READ_WRITE].
Proof. repeat split. Qed.

(** A read-only attribute with the write handler bound. *)
Example read_only_attribute_has_setter :
  let d := fst (initialize_dynamic_attributes (device0 two_scalars)) in
  output_attribute ∈ dyn_attributes d /\
  attr_access output_attribute = READ /\
  attr_fset output_attribute = Some generic_write_method.
Proof. repeat split. vm_compute. constructor. Qed.

(** C1, as stated, fails.  The line [MAIN.array1, arr, ro] names an
    array of four elements.  On the in-memory PLC, and likewise on the
    connection whose handle for it reports an [array_size] of 4, no
    attribute is created for the line, and yet its label is a key of
    [symbols] after the construction. *)
Lemma array_line_entry_is_recorded :
  let line := "MAIN.array1, arr, ro" in
  let r := initialize_dynamic_attributes (device0 [line]) in
  let r4 := initialize_dynamic_attributes (Reporting.reporting_device [line]) in
  let sym4 := {| h_name := "MAIN.array1"; h_array_size := 4 |} in
  (List.length <$> plc0 !! "MAIN.array1") = Some 4%nat /\
  dyn_attributes (fst r) = [] /\
  ~ (symbols (fst r) !! "arr" = None) /\
  Reporting.reporting_get_symbol "MAIN.array1" plc0 = inr sym4 /\
  h_array_size sym4 > 1 /\
  dyn_attributes (fst r4) = [] /\
  ~ (symbols (fst r4) !! "arr" = None).
Proof.
  repeat split; try (vm_compute; discriminate).
Qed.

(** What the body does once the size test fires: the entry is stored,
    the debug message is the only thing printed, and looking up the
    stream for the warning raises. *)
Example size_test_branch_raises :
  let line := "MAIN.array1, arr, ro" in
  let r4 := initialize_dynamic_attributes (Reporting.reporting_device [line]) in
  snd r4 = inl (AttributeError "log_warning") /\
  logged (fst r4) = [(log_debug, init_message "MAIN.array1" "arr" "ro")].
Proof. split; reflexivity. Qed.

Lemma array_symbol_recorded_without_attribute_witness :
  let line := "MAIN.array1, arr, ro" in
  let d := fst (initialize_lines ["MAIN.x, output, ro"]
                  (Reporting.reporting_device with_array)) in
  let sym := {| h_name := "MAIN.array1"; h_array_size := 4 |} in
  let d' := fst (initialize_line line d) in
  symbols d' = <["arr" := sym]> (symbols d) /\
  symbols d' !! "arr" = Some sym /\
  (h_array_size sym > 1 -> dyn_attributes d' = dyn_attributes d).
Proof.
  apply (@array_symbol_recorded_without_attribute Reporting.reporting_pyads
           "MAIN.array1, arr, ro"
           (fst (initialize_lines ["MAIN.x, output, ro"]
                   (Reporting.reporting_device with_array)))
           "MAIN.array1" "arr" "ro"
           {| h_name := "MAIN.array1"; h_array_size := 4 |}).
  - reflexivity.
  - reflexivity.
Defined.

Lemma every_attribute_gets_generic_write_witness :
  let line := "MAIN.x, output, ro" in
  let d := device0 two_scalars in
  exists a,
    dyn_attributes (fst (initialize_line line d)) = dyn_attributes d ++ [a] /\
    attr_name a = "output" /\
    attr_access a = READ /\
    attr_fset a = Some generic_write_method /\
    forall value,
      tango_write a value = Some (raise (DevFailed "API_AttrNotWritable")).
Proof.
  assert (Hsz : h_array_size {| h_name := "MAIN.x"; h_array_size := 1 |} <= 1)
    by (vm_compute; discriminate).
  destruct (every_attribute_gets_generic_write
              "MAIN.x, output, ro" (device0 two_scalars)
              "MAIN.x" "output" "ro"
              {| h_name := "MAIN.x"; h_array_size := 1 |} (VBool true)
              eq_refl eq_refl Hsz eq_refl)
    as [(a & Ha & Hn & Hset & _ & Hro & _) _].
  assert (Hne : "ro" <> "rw") by discriminate.
  destruct (Hro Hne) as [Hacc Hw].
  exists a. repeat split; try assumption.
  intros value. apply Hw.
Defined.

(** C3, as stated, fails: the second line of [with_unknown] does not
    resolve, the construction raises, and the attribute of the first
    line is registered all the same. *)
Lemma attributes_survive_unresolved_symbol :
  let r := initialize_dynamic_attributes (device0 with_unknown) in
  get_symbol "MAIN.nope" plc0 = inl (ADSError ADSERR_DEVICE_SYMBOLNOTFOUND) /\
  snd r = inl (ADSError ADSERR_DEVICE_SYMBOLNOTFOUND) /\
  dyn_attributes (fst r) = [output_attribute] /\
  ~ (dyn_attributes (fst r) = []).
Proof. repeat split. vm_compute. discriminate. Qed.

Lemma unresolved_symbol_aborts_without_rollback_witness :
  let d := device0 with_unknown in
  let d1 := fst (initialize_lines ["MAIN.x, output, ro"] d) in
  exists d',
    initialize_dynamic_attributes d = (d', inl (ADSError ADSERR_DEVICE_SYMBOLNOTFOUND)) /\
    dyn_attributes d' = dyn_attributes d1 /\
    symbols d' = symbols d1 /\
    (["MAIN.x, output, ro"] = [] -> dyn_attributes d' = dyn_attributes d).
Proof.
  apply (unresolved_symbol_aborts_without_rollback
           (device0 with_unknown) ["MAIN.x, output, ro"]
           "MAIN.nope, gone, rw" ["MAIN.y, setpoint, rw"]
           (fst (initialize_lines ["MAIN.x, output, ro"] (device0 with_unknown)))
           "MAIN.nope" "gone" "rw" (ADSError ADSERR_DEVICE_SYMBOLNOTFOUND)).
  - reflexivity.
  - reflexivity.
  - reflexivity.
  - reflexivity.
Defined.

Lemma malformed_line_aborts_witness :
  let d := device0 with_malformed in
  (exists d' e, initialize_dynamic_attributes d = (d', inl e)) /\
  (forall d1, initialize_lines ["MAIN.x, output, ro"] d = (d1, inr tt) ->
              initialize_dynamic_attributes d = (d1, inl ValueError)).
Proof.
  apply (malformed_line_aborts
           (device0 with_malformed) ["MAIN.x, output, ro"]
           "MAIN.y, setpoint" ["MAIN.y, setpoint, rw"]).
  - reflexivity.
  - vm_compute. discriminate.
Defined.

Lemma access_token_decides_write_type_witness :
  let line := "  MAIN.y ,setpoint,   rw " in
  let d := device0 [line] in
  exists d' a,
    initialize_line line d = (d', inr tt) /\
    dyn_attributes d' = dyn_attributes d ++ [a] /\
    attr_name a = "setpoint" /\
    ("rw" = "rw" -> attr_access a = READ_WRITE) /\
    ("rw" <> "rw" -> attr_access a = READ).
Proof.
  apply (access_token_decides_write_type
           "  MAIN.y ,setpoint,   rw " (device0 ["  MAIN.y ,setpoint,   rw "])
           "MAIN.y" "setpoint" "rw"
           {| h_name := "MAIN.y"; h_array_size := 1 |} (VReal 0)).
  - reflexivity.
  - reflexivity.
  - vm_compute. discriminate.
  - reflexivity.
Defined.

Lemma generic_read_is_live_witness :
  let d := fst (initialize_dynamic_attributes (device0 two_scalars)) in
  (forall attr dev,
      generic_read attr dev =
        match symbols dev !! get_name attr with
        | Some symbol => (dev, symbol_read symbol (plc dev))
        | None => (dev, inl (KeyError (get_name attr)))
        end) /\
  exists symbol,
    symbols d !! "output" = Some symbol /\
    forall w,
      generic_read {| get_name := "output" |} (with_plc w d)
        = (with_plc w d, symbol_read symbol w).
Proof.
  apply (generic_read_is_live (device0 two_scalars) output_attribute).
  - constructor.
  - vm_compute. constructor.
Defined.

Lemma write_then_read_round_trip_witness :
  let d := fst (initialize_dynamic_attributes (device0 two_scalars)) in
  let attr := {| w_get_name := "setpoint"; get_write_value := real_3_5 |} in
  snd (generic_write attr d) = inr tt /\
  generic_read {| get_name := "setpoint" |} (fst (generic_write attr d))
    = (fst (generic_write attr d), inr real_3_5).
Proof.
  split; [reflexivity|].
  apply (write_then_read_round_trip
           (fst (initialize_dynamic_attributes (device0 two_scalars)))
           "setpoint" real_3_5).
  reflexivity.
Defined.

Lemma read_float_array_negative_count_witness :
  (length <$> plc0 !! "MAIN.array1") = Some 4%nat /\
  read_float_array ([-1], ["MAIN.array1"]) (device0 [])
    = (device0 [], inl ValueError).
Proof.
  split; [reflexivity|].
  apply (read_float_array_negative_count (device0 []) (-1) [] "MAIN.array1" []).
  reflexivity.
Defined.

Lemma read_float_array_reads_count_witness :
  let d := device0 [] in
  let argin := ([3; 9], ["MAIN.array1"; "MAIN.x"]) in
  let data_type := c_array PLCTYPE_REAL 3 in
  read_float_array argin d = (d, read_by_name "MAIN.array1" data_type (plc d)) /\
  sizeof data_type = 3 * 4 /\
  (forall vs, snd (read_float_array argin d) = inr vs ->
              Z.of_nat (List.length vs) = 3) /\
  (forall table,
      snd (read_float_array argin (with_symbols table d))
        = snd (read_float_array argin d)).
Proof.
  apply (read_float_array_reads_count (device0 []) 3 [9] "MAIN.array1" ["MAIN.x"]).
  vm_compute. discriminate.
Defined.

Lemma read_float_array_ignores_extra_items_witness :
  read_float_array ([3; 9], ["MAIN.array1"; "MAIN.x"]) (device0 [])
    = read_float_array ([3], ["MAIN.array1"]) (device0 []).
Proof.
  apply (read_float_array_ignores_extra_items (device0 [])
           ([3; 9], ["MAIN.array1"; "MAIN.x"]) ([3], ["MAIN.array1"])).
  - reflexivity.
  - reflexivity.
Defined.

(** The command on the array of four REALs: three of them, all four,
    and one too many. *)
Example read_float_array_runs :
  snd (read_float_array ([3], ["MAIN.array1"]) (device0 []))
    = inr [VReal 0; VReal 1065353216; VReal 1073741824] /\
  snd (read_float_array ([4], ["MAIN.array1"]) (device0 []))
    = inr [VReal 0; VReal 1065353216; VReal 1073741824; VReal 1077936128] /\
  snd (read_float_array ([5], ["MAIN.array1"]) (device0 []))
    = inl (ADSError ADSERR_DEVICE_INVALIDSIZE).
Proof. repeat split. Qed.

End SimRuns.

(* ===================================================================== *)
(** ** Further properties: how manifest lines are read                    *)
(* ===================================================================== *)

Module PyStrTrim.

Import PyStr.

Lemma rstrip_cons c r :
  rstrip (String c r) =
    match rstrip r with
    | EmptyString => if isspace c then EmptyString else String c EmptyString
    | r' => String c r'
    end.
Proof. reflexivity. Qed.

Lemma rstrip_cons_nonspace c r :
  isspace c = false -> rstrip (String c r) = String c (rstrip r).
Proof.
  intros Hc. rewrite rstrip_cons.
  destruct (rstrip r); [now rewrite Hc | reflexivity].
Qed.

Lemma rstrip_idem s : rstrip (rstrip s) = rstrip s.
Proof.
  induction s as [|c r IH]; [reflexivity|].
  rewrite rstrip_cons. destruct (rstrip r) as [|c' t] eqn:E.
  - destruct (isspace c) eqn:Hc; [reflexivity|].
    now rewrite rstrip_cons_nonspace.
  - rewrite rstrip_cons, IH. reflexivity.
Qed.

(** What [lstrip] leaves is empty or starts with a character that is not
    white space. *)
Lemma lstrip_head s :
  lstrip s = EmptyString \/
  exists c r, lstrip s = String c r /\ isspace c = false.
Proof.
  induction s as [|c r IH]; [now left|].
  simpl. destruct (isspace c) eqn:Hc; [exact IH|].
  right. eauto.
Qed.

Lemma strip_idem s : strip (strip s) = strip s.
Proof.
  unfold strip. destruct (lstrip_head s) as [->|(c & r & -> & Hc)]; [reflexivity|].
  rewrite rstrip_cons_nonspace by exact Hc.
  simpl lstrip. rewrite Hc.
  rewrite rstrip_cons_nonspace by exact Hc.
  now rewrite rstrip_idem.
Qed.

Lemma strip_space s : strip (String " " s) = strip s.
Proof. reflexivity. Qed.

Lemma split_no_sep sep s : count sep s = 0%nat -> split sep s = [s].
Proof.
  induction s as [|c r IH]; simpl; [reflexivity|].
  destruct (Ascii.eqb c sep); [discriminate|].
  intros H. now rewrite IH.
Qed.

Lemma split_app_sep sep s t :
  count sep s = 0%nat -> split sep (s +:+ String sep t) = s :: split sep t.
Proof.
  induction s as [|c r IH]; simpl.
  - now rewrite Ascii.eqb_refl.
  - destruct (Ascii.eqb c sep); [discriminate|].
    intros H. now rewrite IH.
Qed.

End PyStrTrim.

Section Reading.

Context {P : Pyads}.

(** X1.  The number of commas alone decides whether a line gets past
    the unpacking: with any number other than two the body raises
    [ValueError] and leaves the device as it was; with exactly two the
    line unpacks to three fields and the first thing the body does is
    print its debug message. *)
Theorem two_commas_decide_unpacking line d :
  (PyStr.count "," line <> 2%nat ->
   initialize_line line d = (d, inl ValueError)) /\
  (PyStr.count "," line = 2%nat ->
   exists name label access more,
     fields line = [name; label; access] /\
     logged (fst (initialize_line line d))
       = logged d ++ (log_debug, init_message name label access) :: more).
Proof.
  split.
  - intros Hc. apply initialize_line_malformed.
    rewrite PyStrFacts.split_length. lia.
  - intros Hc.
    assert (Hlen : List.length (fields line) = 3%nat).
    { unfold fields. rewrite length_map, PyStrFacts.split_length. lia. }
    destruct (fields line) as [|name [|label [|access [|x xs]]]] eqn:Hf;
      try discriminate Hlen.
    exists name, label, access.
    destruct (get_symbol name (plc d)) as [e|sym] eqn:Hs.
    { exists []. now rewrite (initialize_line_unresolved _ _ _ _ _ _ Hf Hs). }
    destruct (Z_gt_le_dec (array_size sym) 1) as [Hsz|Hsz].
    { exists []. now rewrite (initialize_line_array _ _ _ _ _ _ Hf Hs Hsz). }
    destruct (symbol_read sym (plc d)) as [e|v] eqn:Hr.
    { exists []. now rewrite (initialize_line_read_fails _ _ _ _ _ _ _ Hf Hs Hsz Hr). }
    exists []. now rewrite (initialize_line_scalar _ _ _ _ _ _ _ Hf Hs Hsz Hr).
Qed.

(** X2.  The documented line format reads back: when none of the three
    texts holds a comma or starts or ends with white space, the line
    [name, label, access] unpacks to exactly these three fields. *)
Theorem manifest_line_round_trip name label access :
  PyStr.count "," name = 0%nat ->
  PyStr.count "," label = 0%nat ->
  PyStr.count "," access = 0%nat ->
  PyStr.strip name = name ->
  PyStr.strip label = label ->
  PyStr.strip access = access ->
  fields (manifest_line name label access) = [name; label; access].
Proof.
  intros Cn Cl Ca Sn Sl Sa. unfold fields, manifest_line.
  change (name +:+ ", " +:+ label +:+ ", " +:+ access)
    with (name +:+ String "," (String " " label +:+ String "," (String " " access))).
  rewrite PyStrTrim.split_app_sep by exact Cn.
  rewrite PyStrTrim.split_app_sep by exact Cl.
  rewrite PyStrTrim.split_no_sep by exact Ca.
  cbn [map]. rewrite !PyStrTrim.strip_space.
  now rewrite Sn, Sl, Sa.
Qed.

(** X3.  Every field the loop body works with is trimmed: stripping it
    again changes nothing, so no name, label or access token carries
    white space at either end. *)
Theorem fields_are_trimmed line f :
  f ∈ fields line -> PyStr.strip f = f.
Proof.
  unfold fields. intros Hf.
  apply list_elem_of_fmap in Hf as (s & -> & _).
  apply PyStrTrim.strip_idem.
Qed.

End Reading.

(* ===================================================================== *)
(** ** Further properties: the construction as a whole                    *)
(* ===================================================================== *)

Section Outcome.

Context {P : Pyads}.

(** What a pass through the body that returns normally has done: only a
    line whose symbol resolves, is no array by its handle and can be read
    gets there. *)
Lemma initialize_line_success line d d' :
  initialize_line line d = (d', inr tt) ->
  exists name label access sym v,
    fields line = [name; label; access] /\
    get_symbol name (plc d) = inr sym /\
    array_size sym <= 1 /\
    symbol_read sym (plc d) = inr v /\
    d' = mk_device (scalar_symbols d) (plc d) (<[label := sym]> (symbols d))
           (dyn_attributes d ++ [attribute_for label v access])
           (logged d ++ [(log_debug, init_message name label access)]).
Proof.
  intros H.
  destruct (fields line) as [|name [|label [|access [|x xs]]]] eqn:Hf;
    try (rewrite initialize_line_malformed in H;
         [discriminate H
         | rewrite <- (length_map PyStr.strip); fold (fields line);
           rewrite Hf; cbn; lia]).
  exists name, label, access.
  destruct (get_symbol name (plc d)) as [e|sym] eqn:Hs.
  { rewrite (initialize_line_unresolved _ _ _ _ _ _ Hf Hs) in H. discriminate H. }
  exists sym.
  destruct (Z_gt_le_dec (array_size sym) 1) as [Hsz|Hsz].
  { rewrite (initialize_line_array _ _ _ _ _ _ Hf Hs Hsz) in H. discriminate H. }
  destruct (symbol_read sym (plc d)) as [e|v] eqn:Hr.
  { rewrite (initialize_line_read_fails _ _ _ _ _ _ _ Hf Hs Hsz Hr) in H.
    discriminate H. }
  exists v. rewrite (initialize_line_scalar _ _ _ _ _ _ _ Hf Hs Hsz Hr) in H.
  repeat split; try assumption. now inversion H.
Qed.

(** A pass that returns normally was given a line [line_ok] accepts. *)
Lemma initialize_line_ok line d :
  snd (initialize_line line d) = inr tt -> line_ok (plc d) line = true.
Proof.
  intros H. destruct (initialize_line line d) as [d' r] eqn:E. cbn in H. subst r.
  apply initialize_line_success in E
    as (name & label & access & sym & v & Hf & Hs & Hsz & Hr & _).
  unfold line_ok. rewrite Hf. cbn. rewrite Hs, Hr.
  destruct (Z.gtb_spec (array_size sym) 1); [lia | reflexivity].
Qed.

Lemma initialize_lines_ok lines d :
  snd (initialize_lines lines d) = inr tt ->
  forallb (line_ok (plc d)) lines = true.
Proof.
  revert d. induction lines as [|line rest IH]; intros d; [reflexivity|].
  cbn. unfold bind.
  pose proof (initialize_line_ok line d) as Hline.
  pose proof (initialize_line_effect line d) as (_ & Hplc & _).
  destruct (initialize_line line d) as [d1 [e|[]]]; cbn in *; [discriminate|].
  intros H. rewrite (Hline eq_refl). cbn.
  rewrite <- Hplc. now apply IH.
Qed.

(** X4.  The construction can only return normally when every manifest
    line, on the PLC as it is when the construction starts, has exactly
    three fields, names a symbol that resolves, whose handle reports an
    [array_size] not above 1, and whose sampling read succeeds.  One line
    that is not like that, at whatever position, rules a normal return
    out. *)
Theorem normal_return_needs_readable_scalars d :
  snd (initialize_dynamic_attributes d) = inr tt ->
  forallb (line_ok (plc d)) (scalar_symbols d) = true.
Proof. apply initialize_lines_ok. Qed.

(** One pass through the body only adds to the log. *)
Lemma initialize_line_log_grows line d :
  exists more, logged (fst (initialize_line line d)) = logged d ++ more.
Proof.
  unfold initialize_line. run_device.
  destruct (unpack3 _) as [e|[[name label] access]]; cbn.
  { exists []. now rewrite app_nil_r. }
  destruct (get_symbol name (plc d)) as [e|sym]; cbn; [eauto|].
  destruct (array_size sym >? 1); cbn; [eauto|].
  destruct (symbol_read sym (plc d)); cbn; eauto.
Qed.

Lemma initialize_lines_log_grows lines d :
  exists more, logged (fst (initialize_lines lines d)) = logged d ++ more.
Proof.
  revert d. induction lines as [|line rest IH]; intros d; cbn.
  { exists []. now rewrite app_nil_r. }
  destruct (initialize_line_log_grows line d) as [m1 H1].
  unfold bind. destruct (initialize_line line d) as [d1 [e|[]]]; cbn in *; [eauto|].
  destruct (IH d1) as [m2 H2]. exists (m1 ++ m2).
  now rewrite H2, H1, <- app_assoc.
Qed.

(** X5.  However it ends, the construction only adds: it leaves the PLC
    and the manifest as they were, keeps every key of [symbols], keeps
    the attributes registered before as a prefix of the attribute list
    and keeps the log written before as a prefix of the log. *)
Theorem construction_only_adds d :
  let d' := fst (initialize_dynamic_attributes d) in
  plc d' = plc d /\
  scalar_symbols d' = scalar_symbols d /\
  dom (symbols d) ⊆ dom (symbols d') /\
  (exists created, dyn_attributes d' = dyn_attributes d ++ created) /\
  (exists printed, logged d' = logged d ++ printed).
Proof.
  destruct (initialize_lines_effect (scalar_symbols d) d)
    as (Hm & Hp & Hk & created & Hc & _).
  repeat split; try assumption.
  - intros k. rewrite !elem_of_dom. apply Hk.
  - eauto.
  - apply initialize_lines_log_grows.
Qed.

End Outcome.

Section Bookkeeping.

Context {P : Pyads}.

Lemma line_label_fields line name label access :
  fields line = [name; label; access] -> line_label line = Some label.
Proof. unfold line_label. now intros ->. Qed.

(** The table after a pass that returned normally. *)
Lemma initialize_line_success_symbols line d d' :
  initialize_line line d = (d', inr tt) ->
  exists label sym,
    line_label line = Some label /\
    symbols d' = <[label := sym]> (symbols d).
Proof.
  intros H. apply initialize_line_success in H
    as (name & label & access & sym & v & Hf & _ & _ & _ & ->).
  exists label, sym. split; [now apply (line_label_fields _ name _ access)|].
  reflexivity.
Qed.

Lemma initialize_lines_keys lines d d' :
  initialize_lines lines d = (d', inr tt) ->
  dom (symbols d') = dom (symbols d) ∪ list_to_set (omap line_label lines).
Proof.
  revert d. induction lines as [|line rest IH]; intros d; cbn.
  - unfold ret. intros [= <-]. now rewrite union_empty_r_L.
  - unfold bind. destruct (initialize_line line d) as [d1 [e|[]]] eqn:E;
      [discriminate|].
    intros H. rewrite (IH _ H).
    apply initialize_line_success_symbols in E as (label & sym & -> & ->).
    rewrite dom_insert_L. cbn.
    rewrite (comm_L (∪) {[label]} (dom (symbols d))).
    now rewrite <- (assoc_L (∪)).
Qed.

(** X6.  After a construction that returned normally the keys of
    [symbols] are the keys it had before together with the labels of all
    manifest lines. *)
Theorem symbol_table_keys_after_construction d d' :
  initialize_dynamic_attributes d = (d', inr tt) ->
  dom (symbols d') = dom (symbols d) ∪ list_to_set (omap line_label (scalar_symbols d)).
Proof. apply initialize_lines_keys. Qed.

Lemma line_message_fields line name label access :
  fields line = [name; label; access] ->
  line_message line = Some (log_debug, init_message name label access).
Proof. unfold line_message. now intros ->. Qed.

Lemma initialize_lines_one_each lines d d' :
  initialize_lines lines d = (d', inr tt) ->
  exists created,
    dyn_attributes d' = dyn_attributes d ++ created /\
    map attr_name created = omap line_label lines /\
    List.length created = List.length lines /\
    logged d' = logged d ++ omap line_message lines /\
    List.length (omap line_message lines) = List.length lines.
Proof.
  revert d. induction lines as [|line rest IH]; intros d; cbn.
  - unfold ret. intros [= <-]. exists []. now rewrite !app_nil_r.
  - unfold bind. destruct (initialize_line line d) as [d1 [e|[]]] eqn:E;
      [discriminate|].
    intros H. destruct (IH _ H) as (c2 & Hc2 & Hn2 & Hl2 & Hp2 & Hm2).
    apply initialize_line_success in E
      as (name & label & access & sym & v & Hf & _ & _ & _ & ->).
    cbn in Hc2, Hp2.
    rewrite (line_label_fields _ _ _ _ Hf), (line_message_fields _ _ _ _ Hf).
    exists (attribute_for label v access :: c2). repeat split.
    + rewrite Hc2. now rewrite <- app_assoc.
    + cbn. now rewrite Hn2.
    + cbn. now rewrite Hl2.
    + rewrite Hp2. now rewrite <- app_assoc.
    + cbn. now rewrite Hm2.
Qed.

(** X7.  In a construction that returned normally every manifest line
    printed exactly one message, its debug message, and registered exactly
    one attribute, named by its label: the attributes added are as many
    as the lines and carry the lines' labels in order, and what was
    printed is the lines' debug messages in order. *)
Theorem every_line_registers_one_attribute d d' :
  initialize_dynamic_attributes d = (d', inr tt) ->
  exists created,
    dyn_attributes d' = dyn_attributes d ++ created /\
    map attr_name created = omap line_label (scalar_symbols d) /\
    List.length created = List.length (scalar_symbols d) /\
    logged d' = logged d ++ omap line_message (scalar_symbols d) /\
    List.length (omap line_message (scalar_symbols d))
      = List.length (scalar_symbols d).
Proof. apply initialize_lines_one_each. Qed.

(** One pass appends nothing or the attribute named by the line's label. *)
Lemma initialize_line_created line d :
  dyn_attributes (fst (initialize_line line d)) = dyn_attributes d \/
  exists label v access,
    line_label line = Some label /\
    dyn_attributes (fst (initialize_line line d))
      = dyn_attributes d ++ [attribute_for label v access].
Proof.
  destruct (initialize_line line d) as [d' [e|[]]] eqn:E.
  - left. cbn. revert E. unfold initialize_line. run_device.
    destruct (unpack3 _) as [e0|[[name label] access]]; cbn; [now intros [= <- _]|].
    destruct (get_symbol name (plc d)) as [e0|sym]; cbn; [now intros [= <- _]|].
    destruct (array_size sym >? 1); cbn; [now intros [= <- _]|].
    destruct (symbol_read sym (plc d)); cbn; [now intros [= <- _] | discriminate].
  - apply initialize_line_success in E
      as (name & label & access & sym & v & Hf & _ & _ & _ & ->). cbn.
    right. exists label, v, access.
    split; [now apply (line_label_fields _ name _ access) | reflexivity].
Qed.

Lemma initialize_lines_created_in_order lines d :
  exists created,
    dyn_attributes (fst (initialize_lines lines d)) = dyn_attributes d ++ created /\
    map attr_name created `sublist_of` omap line_label lines.
Proof.
  revert d. induction lines as [|line rest IH]; intros d; cbn.
  { exists []. split; [now rewrite app_nil_r | constructor]. }
  pose proof (initialize_line_created line d) as H1.
  unfold bind. destruct (initialize_line line d) as [d1 [e|[]]]; cbn in *.
  - destruct H1 as [H1|(label & v & access & -> & H1)].
    + exists []. split; [now rewrite app_nil_r | apply sublist_nil_l].
    + eexists [_]. split; [exact H1|]. cbn.
      apply sublist_skip, sublist_nil_l.
  - destruct (IH d1) as (c2 & Hc2 & Hs2).
    destruct H1 as [H1|(label & v & access & -> & H1)].
    + exists c2. split; [now rewrite Hc2, H1|].
      destruct (line_label line); [now apply sublist_cons | exact Hs2].
    + exists (attribute_for label v access :: c2). split.
      * rewrite Hc2, H1. now rewrite <- app_assoc.
      * cbn. now apply sublist_skip.
Qed.

(** X12.  Attributes are registered in manifest order and named by the
    label of their line: the names of the attributes the construction
    adds, in order, are picked from the labels of the manifest lines, in
    order. *)
Theorem attributes_follow_manifest_order d :
  exists created,
    dyn_attributes (fst (initialize_dynamic_attributes d))
      = dyn_attributes d ++ created /\
    map attr_name created `sublist_of` omap line_label (scalar_symbols d).
Proof. apply initialize_lines_created_in_order. Qed.

End Bookkeeping.

(* ===================================================================== *)
(** ** Further properties: labels used more than once                     *)
(* ===================================================================== *)

Section Labels.

Context {P : Pyads}.

(** A line leaves the entries of other labels alone, however it ends. *)
Lemma initialize_line_other_label line d label :
  line_label line <> Some label ->
  symbols (fst (initialize_line line d)) !! label = symbols d !! label.
Proof.
  unfold line_label, initialize_line. run_device. fold (fields line).
  destruct (fields line) as [|name [|l [|access [|x xs]]]]; cbn; try reflexivity.
  intros Hne. assert (Hl : l <> label) by congruence.
  destruct (get_symbol name (plc d)) as [e|sym]; cbn; [reflexivity|].
  destruct (array_size sym >? 1); cbn; [now rewrite lookup_insert_ne|].
  destruct (symbol_read sym (plc d)); cbn; now rewrite lookup_insert_ne.
Qed.

Lemma initialize_lines_other_label lines d label :
  Forall (fun line => line_label line <> Some label) lines ->
  symbols (fst (initialize_lines lines d)) !! label = symbols d !! label.
Proof.
  intros H. revert d. induction H as [|line rest Hline _ IH]; intros d; [reflexivity|].
  cbn. unfold bind.
  pose proof (initialize_line_other_label line d label Hline) as H1.
  destruct (initialize_line line d) as [d1 [e|[]]]; cbn in *; [exact H1|].
  now rewrite IH.
Qed.

(** A line whose name resolves stores the handle under its label,
    however the rest of the body ends. *)
Lemma initialize_line_stores line d name label access sym :
  fields line = [name; label; access] ->
  get_symbol name (plc d) = inr sym ->
  symbols (fst (initialize_line line d)) !! label = Some sym.
Proof.
  intros Hf Hs.
  destruct (Z_gt_le_dec (array_size sym) 1) as [Hsz|Hsz].
  { rewrite (initialize_line_array _ _ _ _ _ _ Hf Hs Hsz). cbn.
    apply lookup_insert_eq. }
  destruct (symbol_read sym (plc d)) as [e|v] eqn:Hr.
  - rewrite (initialize_line_read_fails _ _ _ _ _ _ _ Hf Hs Hsz Hr). cbn.
    apply lookup_insert_eq.
  - rewrite (initialize_line_scalar _ _ _ _ _ _ _ Hf Hs Hsz Hr). cbn.
    apply lookup_insert_eq.
Qed.

Lemma not_in_labels label lines :
  label ∉ omap line_label lines ->
  Forall (fun line => line_label line <> Some label) lines.
Proof.
  intros Hn. apply Forall_forall. intros line Hin Hl.
  apply Hn. apply list_elem_of_omap. eauto.
Qed.

(** X8.  The last line to use a label decides what the label stands
    for: when a line that is reached resolves its name to a handle and no
    later line uses the same label, then after the construction, however
    it ends, [symbols] maps the label to that handle and the generic read
    of that label reads that handle. *)
Theorem last_label_wins d pre line post d1 name label access sym :
  scalar_symbols d = pre ++ line :: post ->
  initialize_lines pre d = (d1, inr tt) ->
  fields line = [name; label; access] ->
  get_symbol name (plc d) = inr sym ->
  Forall (fun later => line_label later <> Some label) post ->
  let d' := fst (initialize_dynamic_attributes d) in
  symbols d' !! label = Some sym /\
  forall w,
    generic_read {| get_name := label |} (with_plc w d')
      = (with_plc w d', symbol_read sym w).
Proof.
  intros Hm Hpre Hf Hs Hpost d'.
  assert (Hsym : symbols d' !! label = Some sym).
  { subst d'. unfold initialize_dynamic_attributes.
    rewrite Hm, initialize_lines_app, Hpre.
    pose proof (initialize_lines_effect pre d) as (_ & Hplc & _).
    rewrite Hpre in Hplc. cbn in Hplc. rewrite <- Hplc in Hs.
    pose proof (initialize_line_stores line d1 _ _ _ _ Hf Hs) as Hst.
    cbn. unfold bind.
    destruct (initialize_line line d1) as [d2 [e|[]]]; cbn in *; [exact Hst|].
    now rewrite initialize_lines_other_label. }
  split; [exact Hsym|].
  intros w. rewrite generic_read_unfold. cbn. now rewrite Hsym.
Qed.

Lemma initialize_lines_typed lines d d' :
  initialize_lines lines d = (d', inr tt) ->
  NoDup (omap line_label lines) ->
  exists created,
    dyn_attributes d' = dyn_attributes d ++ created /\
    Forall (fun a => exists sym v,
                symbols d' !! attr_name a = Some sym /\
                symbol_read sym (plc d) = inr v /\
                type_of v = attr_dtype a) created.
Proof.
  revert d. induction lines as [|line rest IH]; intros d; cbn.
  { unfold ret. intros [= <-] _. exists []. split; [now rewrite app_nil_r | constructor]. }
  unfold bind. destruct (initialize_line line d) as [d1 [e|[]]] eqn:E; [discriminate|].
  intros H Hnd.
  pose proof E as E'.
  apply initialize_line_success in E'
    as (name & label & access & sym & v & Hf & Hs & _ & Hr & Hd1).
  rewrite (line_label_fields _ _ _ _ Hf) in Hnd.
  apply NoDup_cons in Hnd as [Hfresh Hnd].
  destruct (IH d1 H Hnd) as (c2 & Hc2 & Hall2).
  assert (Hplc : plc d1 = plc d) by now rewrite Hd1.
  rewrite Hplc in Hall2.
  exists (attribute_for label v access :: c2). split.
  - rewrite Hc2, Hd1. cbn. now rewrite <- app_assoc.
  - constructor; [|exact Hall2].
    exists sym, v. cbn. repeat split; [|exact Hr].
    replace d' with (fst (initialize_lines rest d1)) by now rewrite H.
    rewrite initialize_lines_other_label by now apply not_in_labels.
    rewrite Hd1. cbn. apply lookup_insert_eq.
Qed.

(** X11.  With no label used twice, every attribute added by a
    construction that returned normally can be read straight away: on
    the PLC as it was during the construction the generic read succeeds,
    and the value it returns has the Python type the attribute was
    registered with. *)
Theorem fresh_attributes_read_their_type d d' :
  initialize_dynamic_attributes d = (d', inr tt) ->
  NoDup (omap line_label (scalar_symbols d)) ->
  exists created,
    dyn_attributes d' = dyn_attributes d ++ created /\
    forall a, a ∈ created ->
      exists v,
        generic_read {| get_name := attr_name a |} d' = (d', inr v) /\
        type_of v = attr_dtype a.
Proof.
  intros H Hnd.
  destruct (initialize_lines_typed _ _ _ H Hnd) as (created & Hc & Hall).
  exists created. split; [exact Hc|].
  intros a Ha. rewrite Forall_forall in Hall.
  destruct (Hall a Ha) as (sym & v & Hsym & Hr & Ht).
  exists v. split; [|exact Ht].
  rewrite generic_read_unfold. cbn. rewrite Hsym.
  pose proof (initialize_lines_effect (scalar_symbols d) d) as (_ & Hplc & _).
  fold (initialize_dynamic_attributes d) in Hplc. rewrite H in Hplc. cbn in Hplc.
  now rewrite Hplc, Hr.
Qed.

End Labels.

(* ===================================================================== *)
(** ** Further properties: what the handlers and the command leave alone  *)
(* ===================================================================== *)

Section Frames.

Context {P : Pyads}.

(** X9.  The generic write changes nothing but the PLC: manifest,
    [symbols], attributes and log stay as they were.  When it raises, the
    device is left exactly as it was, and for a name that is no key of
    [symbols] it raises [KeyError] for that name without a write being
    issued. *)
Theorem generic_write_touches_plc_only attr d :
  let d' := fst (generic_write attr d) in
  scalar_symbols d' = scalar_symbols d /\
  symbols d' = symbols d /\
  dyn_attributes d' = dyn_attributes d /\
  logged d' = logged d /\
  (forall e, snd (generic_write attr d) = inl e -> d' = d) /\
  (symbols d !! w_get_name attr = None ->
   generic_write attr d = (d, inl (KeyError (w_get_name attr)))).
Proof.
  rewrite generic_write_unfold.
  destruct (symbols d !! w_get_name attr) as [sym|]; cbn.
  - destruct (symbol_write sym (get_write_value attr) (plc d)); cbn;
      repeat split; try discriminate; auto.
  - repeat split; auto.
Qed.

(** X10.  The command only observes: whatever the input and the
    outcome, the device is as it was before.  An input whose integer
    array or whose string array is empty raises [IndexError]. *)
Theorem read_float_array_only_observes argin d :
  fst (read_float_array argin d) = d /\
  (fst argin = [] \/ snd argin = [] ->
   snd (read_float_array argin d) = inl IndexError).
Proof.
  unfold read_float_array. run_device.
  destruct argin as [[|npts ns] [|name names]]; cbn;
    try (split; [reflexivity | intros _; reflexivity]).
  destruct (ctype_repeat npts PLCTYPE_REAL) as [e|t]; cbn.
  - split; [reflexivity | intros [H|H]; discriminate H].
  - destruct (read_by_name name t (plc d)); cbn;
      (split; [reflexivity | intros [H|H]; discriminate H]).
Qed.

End Frames.

Section SamplingRead.

Context {P : Pyads}.

(** X13.  The read that samples a scalar's value can fail too, and then
    the construction stops there with that error: when the lines before
    went through and the line's name resolves to a symbol that is no
    array but cannot be read, the error of the read is raised, the label
    is already in [symbols], no attribute is registered for the line, and
    no later line is run. *)
Theorem failed_sampling_read_aborts d pre line post d1 name label access sym e :
  scalar_symbols d = pre ++ line :: post ->
  initialize_lines pre d = (d1, inr tt) ->
  fields line = [name; label; access] ->
  get_symbol name (plc d) = inr sym ->
  array_size sym <= 1 ->
  symbol_read sym (plc d) = inl e ->
  exists d',
    initialize_dynamic_attributes d = (d', inl e) /\
    symbols d' = <[label := sym]> (symbols d1) /\
    dyn_attributes d' = dyn_attributes d1.
Proof.
  intros Hm Hpre Hf Hs Hsz Hr.
  pose proof (initialize_lines_effect pre d) as (_ & Hplc & _).
  rewrite Hpre in Hplc. cbn in Hplc. rewrite <- Hplc in Hs, Hr.
  unfold initialize_dynamic_attributes. rewrite Hm, initialize_lines_app, Hpre.
  erewrite initialize_lines_abort
    by (eapply initialize_line_read_fails; eassumption).
  eexists. split; [reflexivity|]. cbn. split; reflexivity.
Qed.

End SamplingRead.

(* ===================================================================== *)
(** ** The further properties on the in-memory PLC                        *)
(* ===================================================================== *)

(** A run whose outcome is a result, as an equation on the whole run. *)
Lemma run_returns {P : Pyads} {A} (m : M A) (d : TwincatAds) (a : A) :
  snd (m d) = inr a -> m d = (fst (m d), inr a).
Proof. destruct (m d) as [d' r]. cbn. now intros ->. Qed.

Module SimChecks.

Import Sim SimManifests.

Lemma manifest_line_round_trip_witness :
  fields (manifest_line "MAIN.subroutine.bOutputActive" "output" "rw")
    = ["MAIN.subroutine.bOutputActive"; "output"; "rw"].
Proof.
  apply (manifest_line_round_trip "MAIN.subroutine.bOutputActive" "output" "rw");
    reflexivity.
Defined.

Lemma fields_are_trimmed_witness :
  "output" ∈ fields "  MAIN.x ,   output , ro" /\ PyStr.strip "output" = "output".
Proof.
  assert (H : "output" ∈ fields "  MAIN.x ,   output , ro").
  { vm_compute. do 2 constructor. }
  split; [exact H|].
  exact (fields_are_trimmed "  MAIN.x ,   output , ro" "output" H).
Defined.

Lemma normal_return_needs_readable_scalars_witness :
  snd (initialize_dynamic_attributes (device0 two_scalars)) = inr tt /\
  forallb (line_ok plc0) two_scalars = true.
Proof.
  split; [reflexivity|].
  apply (normal_return_needs_readable_scalars (device0 two_scalars)).
  reflexivity.
Defined.

Lemma symbol_table_keys_after_construction_witness :
  let d := device0 two_scalars in
  let d' := fst (initialize_dynamic_attributes d) in
  dom (symbols d') = dom (symbols d) ∪ list_to_set (omap line_label two_scalars).
Proof.
  apply (symbol_table_keys_after_construction (device0 two_scalars)
           (fst (initialize_dynamic_attributes (device0 two_scalars)))).
  apply run_returns. reflexivity.
Defined.

Lemma every_line_registers_one_attribute_witness :
  let d := device0 two_scalars in
  let d' := fst (initialize_dynamic_attributes d) in
  exists created,
    dyn_attributes d' = dyn_attributes d ++ created /\
    map attr_name created = omap line_label two_scalars /\
    List.length created = 2%nat /\
    logged d' = logged d ++ omap line_message two_scalars /\
    List.length (omap line_message two_scalars) = 2%nat.
Proof.
  apply (every_line_registers_one_attribute (device0 two_scalars)
           (fst (initialize_dynamic_attributes (device0 two_scalars)))).
  apply run_returns. reflexivity.
Defined.

(** The second line reuses the label of the first for an array: the
    attribute [setpoint] stays registered and is now served from the
    array's handle. *)
Lemma last_label_wins_witness :
  let d := device0 reused_label in
  let d' := fst (initialize_dynamic_attributes d) in
  let sym := {| h_name := "MAIN.array1"; h_array_size := 1 |} in
  symbols d' !! "setpoint" = Some sym /\
  forall w,
    generic_read {| get_name := "setpoint" |} (with_plc w d')
      = (with_plc w d', symbol_read sym w).
Proof.
  apply (last_label_wins (device0 reused_label)
           ["MAIN.y, setpoint, rw"] "MAIN.array1, setpoint, ro" []
           (fst (initialize_lines ["MAIN.y, setpoint, rw"] (device0 reused_label)))
           "MAIN.array1" "setpoint" "ro"
           {| h_name := "MAIN.array1"; h_array_size := 1 |}).
  - reflexivity.
  - apply run_returns. reflexivity.
  - reflexivity.
  - reflexivity.
  - constructor.
Defined.

Example reused_label_breaks_the_read :
  let d' := fst (initialize_dynamic_attributes (device0 reused_label)) in
  map attr_name (dyn_attributes d') = ["setpoint"] /\
  snd (generic_read {| get_name := "setpoint" |} d')
    = inl (ADSError ADSERR_DEVICE_INVALIDSIZE).
Proof. split; reflexivity. Qed.

Lemma fresh_attributes_read_their_type_witness :
  let d := device0 two_scalars in
  let d' := fst (initialize_dynamic_attributes d) in
  exists created,
    dyn_attributes d' = dyn_attributes d ++ created /\
    forall a, a ∈ created ->
      exists v,
        generic_read {| get_name := attr_name a |} d' = (d', inr v) /\
        type_of v = attr_dtype a.
Proof.
  apply (fresh_attributes_read_their_type (device0 two_scalars)
           (fst (initialize_dynamic_attributes (device0 two_scalars)))).
  - apply run_returns. reflexivity.
  - vm_compute. repeat constructor; rewrite ?list_elem_of_In; cbn; intuition discriminate.
Defined.

Lemma failed_sampling_read_aborts_witness :
  let d1 := fst (initialize_lines ["MAIN.x, output, ro"] hollow_device) in
  let sym := {| h_name := "MAIN.hollow"; h_array_size := 1 |} in
  exists d',
    initialize_dynamic_attributes hollow_device
      = (d', inl (ADSError ADSERR_DEVICE_INVALIDSIZE)) /\
    symbols d' = <["level" := sym]> (symbols d1) /\
    dyn_attributes d' = dyn_attributes d1.
Proof.
  apply (failed_sampling_read_aborts hollow_device
           ["MAIN.x, output, ro"] "MAIN.hollow, level, rw" ["MAIN.y, setpoint, rw"]
           (fst (initialize_lines ["MAIN.x, output, ro"] hollow_device))
           "MAIN.hollow" "level" "rw"
           {| h_name := "MAIN.hollow"; h_array_size := 1 |}
           (ADSError ADSERR_DEVICE_INVALIDSIZE)).
  - reflexivity.
  - apply run_returns. reflexivity.
  - reflexivity.
  - reflexivity.
  - vm_compute. discriminate.
  - reflexivity.
Defined.

End SimChecks.
